(** * Forensic timeline generator: log-line parsing, file ingestion, timeline

    A shallow embedding of [main.py] (the whole repository is this one file)
    and the properties of its specification that can be settled on it.

    Layout:
    - [PyStr]     the Python [str] operations the program calls;
    - [DateTime]  the [datetime] values it builds;
    - [Strptime]  a model of [datetime.strptime] for the directives of the
                  program's default format list;
    - [Engine]    [parse_log_entry], [process_log_file] and [main], written
                  over an arbitrary [strptime] and an arbitrary
                  [sort_values]: what is proved of them holds whatever the
                  two library functions compute;
    - the definitions the statements use, then the lemmas and theorems.

    Strings are Rocq [string]s: sequences of characters with code below 256. *)

From Stdlib Require Import ZArith List String Ascii Bool Lia.
Import ListNotations.

Local Open Scope bool_scope.
Local Open Scope list_scope.

(* ================================================================== *)
(** ** Python string operations *)

Module PyStr.

Local Open Scope N_scope.

(** [str.isspace] on one character; the same class is the regular
    expression [\s] that [strptime] substitutes for blanks in a format. *)
Definition isspace (c : ascii) : bool :=
  let n := N_of_ascii c in
  ((9 <=? n) && (n <=? 13)) || ((28 <=? n) && (n <=? 32))
  || (n =? 133) || (n =? 160).

(** [str.lower] on one character (letters A-Z and the accented capitals
    of the range 192-222). *)
Definition lower_char (c : ascii) : ascii :=
  let n := N_of_ascii c in
  if ((65 <=? n) && (n <=? 90))
     || ((192 <=? n) && (n <=? 222) && negb (n =? 215))
  then ascii_of_N (n + 32)
  else c.

Definition isdigit (c : ascii) : bool :=
  let n := N_of_ascii c in (48 <=? n) && (n <=? 57).

Local Close Scope N_scope.
Local Open Scope string_scope.

(** [s.lower()] *)
Fixpoint lower (s : string) : string :=
  match s with
  | "" => ""
  | String c s' => String (lower_char c) (lower s')
  end.

(** [s.lstrip()] *)
Fixpoint lstrip (s : string) : string :=
  match s with
  | "" => ""
  | String c s' => if isspace c then lstrip s' else s
  end.

(** [s.rstrip()] *)
Fixpoint rstrip (s : string) : string :=
  match s with
  | "" => ""
  | String c s' =>
      match rstrip s' with
      | "" => if isspace c then "" else String c ""
      | r => String c r
      end
  end.

(** [s.strip()] *)
Definition strip (s : string) : string := rstrip (lstrip s).

(** [s.split(" ", 1)[0]]: the text before the first space character, the
    whole string when it has none.  The separator is the space character
    only: a tab does not split. *)
Fixpoint split_head (s : string) : string :=
  match s with
  | "" => ""
  | String c s' => if (c =? " ")%char then "" else String c (split_head s')
  end.

(** [s[n:]] *)
Fixpoint slice_from (n : nat) (s : string) : string :=
  match n, s with
  | O, _ => s
  | S _, "" => ""
  | S n', String _ s' => slice_from n' s'
  end.

(** [s.startswith(p)] *)
Fixpoint startswith (p s : string) : bool :=
  match p, s with
  | "", _ => true
  | String _ _, "" => false
  | String a p', String b s' => (a =? b)%char && startswith p' s'
  end.

(** [sub in s]: substring test. *)
Fixpoint contains (sub s : string) : bool :=
  startswith sub s
  || match s with
     | "" => false
     | String _ s' => contains sub s'
     end.

(** A string has a blank (a character of [isspace]). *)
Fixpoint has_blank (s : string) : bool :=
  match s with
  | "" => false
  | String c s' => isspace c || has_blank s'
  end.

(** A string has no space character. *)
Fixpoint no_space (s : string) : bool :=
  match s with
  | "" => true
  | String c s' => negb (c =? " ")%char && no_space s'
  end.

End PyStr.

(* ================================================================== *)
(** ** datetime values *)

Module DateTime.

Local Open Scope Z_scope.

Record datetime : Set := mkdatetime {
  year : Z; month : Z; day : Z;
  hour : Z; minute : Z; second : Z; microsecond : Z
}.

Definition is_leap (y : Z) : bool :=
  (y mod 4 =? 0) && (negb (y mod 100 =? 0) || (y mod 400 =? 0)).

Definition days_in_month (y m : Z) : Z :=
  if m =? 2 then (if is_leap y then 29 else 28)
  else if (m =? 4) || (m =? 6) || (m =? 9) || (m =? 11) then 30
  else 31.

(** The range checks of the [datetime] constructor (it raises
    [ValueError] outside them). *)
Definition valid (d : datetime) : bool :=
  (1 <=? year d) && (year d <=? 9999)
  && (1 <=? month d) && (month d <=? 12)
  && (1 <=? day d) && (day d <=? days_in_month (year d) (month d))
  && (0 <=? hour d) && (hour d <=? 23)
  && (0 <=? minute d) && (minute d <=? 59)
  && (0 <=? second d) && (second d <=? 59)
  && (0 <=? microsecond d) && (microsecond d <=? 999999).

End DateTime.
Export DateTime.

(* ================================================================== *)
(** ** A model of [datetime.strptime]

    [strptime] turns the format into a regular expression (a blank run
    becomes [\s+], a directive becomes a group of ordered alternatives,
    any other character is matched literally and case-insensitively),
    takes the first match of the backtracking matcher, rejects it unless
    it consumes the whole input, and builds the [datetime], whose
    constructor checks the ranges.  Every rejection is a [ValueError],
    here [None].

    The model covers the directives of [TIMESTAMP_FORMATS] ([%Y %m %d %H
    %M %S %f %a %b]) and [%%], in the C locale.  A format with another
    directive, or with one directive twice, is outside the model and mapped
    to [None]; no theorem below evaluates [strptime] on such a format. *)

Module Strptime.

Import PyStr.
Local Open Scope string_scope.

Inductive Directive : Set := DY | Dm | Dd | DH | DM | DS | Df | Da | Db.

Definition Directive_eqb (a b : Directive) : bool :=
  match a, b with
  | DY, DY | Dm, Dm | Dd, Dd | DH, DH | DM, DM
  | DS, DS | Df, Df | Da, Da | Db, Db => true
  | _, _ => false
  end.

Inductive Item : Set :=
| Lit (c : ascii)        (* one literal character, case-insensitive *)
| Blank                  (* \s+ *)
| Group (d : Directive). (* (?P<d>...) *)

Definition directive_of (c : ascii) : option Item :=
  if (c =? "%")%char then Some (Lit "%")
  else if (c =? "Y")%char then Some (Group DY)
  else if (c =? "m")%char then Some (Group Dm)
  else if (c =? "d")%char then Some (Group Dd)
  else if (c =? "H")%char then Some (Group DH)
  else if (c =? "M")%char then Some (Group DM)
  else if (c =? "S")%char then Some (Group DS)
  else if (c =? "f")%char then Some (Group Df)
  else if (c =? "a")%char then Some (Group Da)
  else if (c =? "b")%char then Some (Group Db)
  else None.

(** [TimeRE.pattern]: blanks first collapse to one [\s+], then each [%x]
    is replaced by its group. *)
Fixpoint pattern_from (after_blank : bool) (fmt : string)
  : option (list Item) :=
  match fmt with
  | "" => Some []
  | String c rest =>
      if isspace c then
        if after_blank then pattern_from true rest
        else option_map (cons Blank) (pattern_from true rest)
      else if (c =? "%")%char then
        match rest with
        | "" => None
        | String d rest' =>
            match directive_of d with
            | Some it => option_map (cons it) (pattern_from false rest')
            | None => None
            end
        end
      else option_map (cons (Lit c)) (pattern_from false rest)
  end.

Fixpoint groups (items : list Item) : list Directive :=
  match items with
  | [] => []
  | Group d :: items' => d :: groups items'
  | _ :: items' => groups items'
  end.

Fixpoint distinct (ds : list Directive) : bool :=
  match ds with
  | [] => true
  | d :: ds' => negb (existsb (Directive_eqb d) ds') && distinct ds'
  end.

Definition pattern (fmt : string) : option (list Item) :=
  match pattern_from false fmt with
  | Some items => if distinct (groups items) then Some items else None
  | None => None
  end.

(** Character classes of the groups. *)
Definition CharClass : Set := ascii -> bool.

Definition digit : CharClass := isdigit.
Definition range (lo hi : ascii) : CharClass :=
  fun c => (N_of_ascii lo <=? N_of_ascii c)%N
           && (N_of_ascii c <=? N_of_ascii hi)%N.
Definition chr (x : ascii) : CharClass := fun c => (c =? x)%char.
Definition letter (x : ascii) : CharClass :=
  fun c => (lower_char c =? lower_char x)%char.

Fixpoint word (w : string) : list CharClass :=
  match w with
  | "" => []
  | String c w' => letter c :: word w'
  end.

Definition a_weekday : list string :=
  ["mon"; "tue"; "wed"; "thu"; "fri"; "sat"; "sun"].

Definition a_month : list string :=
  ["jan"; "feb"; "mar"; "apr"; "may"; "jun";
   "jul"; "aug"; "sep"; "oct"; "nov"; "dec"].

Fixpoint repeat_class (n : nat) (p : CharClass) : list CharClass :=
  match n with
  | O => []
  | S n' => p :: repeat_class n' p
  end.

(** The alternatives of each group, in the order the regular expression
    lists them. *)
Definition alternatives_of (d : Directive) : list (list CharClass) :=
  match d with
  | DY => [[digit; digit; digit; digit]]
  | Dm => [[chr "1"; range "0" "2"]; [chr "0"; range "1" "9"];
           [range "1" "9"]]
  | Dd => [[chr "3"; range "0" "1"]; [range "1" "2"; digit];
           [chr "0"; range "1" "9"]; [range "1" "9"];
           [chr " "; range "1" "9"]]
  | DH => [[chr "2"; range "0" "3"]; [range "0" "1"; digit]; [digit]]
  | DM => [[range "0" "5"; digit]; [digit]]
  | DS => [[chr "6"; range "0" "1"]; [range "0" "5"; digit]; [digit]]
  | Df => map (fun n => repeat_class n (range "0" "9"))
              [6; 5; 4; 3; 2; 1]%nat
  | Da => map word a_weekday
  | Db => map word a_month
  end.

(** Match a sequence of character classes at the head of [s]: the text
    matched and the rest. *)
Fixpoint match_classes (cls : list CharClass) (s : string)
  : option (string * string) :=
  match cls with
  | [] => Some ("", s)
  | p :: cls' =>
      match s with
      | "" => None
      | String c s' =>
          if p c then
            match match_classes cls' s' with
            | Some (m, r) => Some (String c m, r)
            | None => None
            end
          else None
      end
  end.

(** [\s+] is greedy: the longest run first, then each shorter one. *)
Fixpoint blank_runs (s : string) : list (string * string) :=
  match s with
  | "" => []
  | String c s' =>
      if isspace c then
        (map (fun mr => (String c (fst mr), snd mr)) (blank_runs s')
         ++ [(String c "", s')])%list
      else []
  end.

(** The ways one item can match at the head of [s], in the order the
    backtracking matcher tries them. *)
Definition alternatives (it : Item) (s : string) : list (string * string) :=
  match it with
  | Lit x =>
      match s with
      | "" => []
      | String c s' => if letter x c then [(String c "", s')] else []
      end
  | Blank => blank_runs s
  | Group d =>
      flat_map (fun cls => match match_classes cls s with
                           | Some mr => [mr]
                           | None => []
                           end)
               (alternatives_of d)
  end.

Fixpoint first_some {A B : Type} (f : A -> option B) (l : list A)
  : option B :=
  match l with
  | [] => None
  | a :: l' => match f a with
               | Some b => Some b
               | None => first_some f l'
               end
  end.

Definition Found : Set := list (Directive * string).

Definition record (it : Item) (m : string) (found : Found) : Found :=
  match it with
  | Group d => (found ++ [(d, m)])%list
  | _ => found
  end.

(** [format_regex.match(data_string)]: the first match in backtracking
    order, with the groups found and the unconsumed rest. *)
Fixpoint re_match (items : list Item) (s : string) (found : Found)
  : option (Found * string) :=
  match items with
  | [] => Some (found, s)
  | it :: items' =>
      first_some (fun mr => re_match items' (snd mr) (record it (fst mr) found))
                 (alternatives it s)
  end.

Local Open Scope Z_scope.

(** [int(s)] on the text of a numeric group (digits, for [%d] possibly
    after one blank). *)
Fixpoint int_from (acc : Z) (s : string) : Z :=
  match s with
  | EmptyString => acc
  | String c s' =>
      if isdigit c then int_from (10 * acc + (Z.of_N (N_of_ascii c) - 48)) s'
      else int_from acc s'
  end.

Definition int (s : string) : Z := int_from 0 s.

(** [names.index(s.lower())], counted from [start]. *)
Fixpoint index_from (start : Z) (names : list string) (s : string) : Z :=
  match names with
  | [] => start
  | n :: names' =>
      if String.eqb n (lower s) then start
      else index_from (start + 1) names' s
  end.

Record Fields : Set := mkFields {
  f_year : option Z; f_month : Z; f_day : Z;
  f_hour : Z; f_minute : Z; f_second : Z; f_fraction : Z
}.

Definition initial : Fields := mkFields None 1 1 0 0 0 0.

(** One round of the loop over [found_dict]. *)
Definition convert (fs : Fields) (g : Directive * string) : Fields :=
  let '(d, s) := g in
  match d with
  | DY => mkFields (Some (int s)) (f_month fs) (f_day fs)
                   (f_hour fs) (f_minute fs) (f_second fs) (f_fraction fs)
  | Dm => mkFields (f_year fs) (int s) (f_day fs)
                   (f_hour fs) (f_minute fs) (f_second fs) (f_fraction fs)
  | Db => mkFields (f_year fs) (index_from 1 a_month s) (f_day fs)
                   (f_hour fs) (f_minute fs) (f_second fs) (f_fraction fs)
  | Dd => mkFields (f_year fs) (f_month fs) (int s)
                   (f_hour fs) (f_minute fs) (f_second fs) (f_fraction fs)
  | DH => mkFields (f_year fs) (f_month fs) (f_day fs)
                   (int s) (f_minute fs) (f_second fs) (f_fraction fs)
  | DM => mkFields (f_year fs) (f_month fs) (f_day fs)
                   (f_hour fs) (int s) (f_second fs) (f_fraction fs)
  | DS => mkFields (f_year fs) (f_month fs) (f_day fs)
                   (f_hour fs) (f_minute fs) (int s) (f_fraction fs)
  | Df => mkFields (f_year fs) (f_month fs) (f_day fs)
                   (f_hour fs) (f_minute fs) (f_second fs)
                   (int s * 10 ^ (6 - Z.of_nat (String.length s)))
  | Da => fs  (* the weekday is read and not used for the date *)
  end.

Definition build (fs : Fields) : option datetime :=
  let y := match f_year fs with Some y => y | None => 1900 end in
  let dt := mkdatetime y (f_month fs) (f_day fs)
                       (f_hour fs) (f_minute fs) (f_second fs)
                       (f_fraction fs) in
  if valid dt then Some dt else None.

(** [datetime.strptime(data_string, format)]; [None] is [ValueError]. *)
Definition strptime (data_string format : string) : option datetime :=
  match pattern format with
  | None => None
  | Some items =>
      match re_match items data_string [] with
      | Some (found, EmptyString) => build (fold_left convert found initial)
      | _ => None
      end
  end.

End Strptime.

(* ================================================================== *)
(** ** The program *)

Import PyStr.
Local Open Scope string_scope.

(** [TIMESTAMP_FORMATS] *)
Definition TIMESTAMP_FORMATS : list string :=
  [ "%Y-%m-%d %H:%M:%S";
    "%Y-%m-%d %H:%M:%S.%f";
    "%m/%d/%Y %H:%M:%S";
    "%m/%d/%Y %H:%M:%S.%f";
    "%Y/%m/%d %H:%M:%S";
    "%Y/%m/%d %H:%M:%S.%f";
    "%a %b %d %H:%M:%S %Y";
    "%a %b %d %H:%M:%S.%f %Y" ].

(** [EVENT_PRIORITIES] *)
Definition EVENT_PRIORITIES : list (string * Z) :=
  [ ("critical", 1%Z); ("high", 2%Z); ("medium", 3%Z);
    ("low", 4%Z); ("info", 5%Z) ].

(** [d[key]] on a dict written as its list of items; [None] is [KeyError]. *)
Fixpoint getitem (d : list (string * Z)) (key : string) : option Z :=
  match d with
  | [] => None
  | (k, v) :: d' => if String.eqb k key then Some v else getitem d' key
  end.

(** The dicts that [process_log_file] appends. *)
Record Event : Set := mkEvent {
  timestamp : datetime;
  description : string;
  source : string
}.

(** What the [logging] calls emit, in order. *)
Inductive LogRecord : Set :=
| LogError (msg : string)
| LogWarning (msg : string)
| LogInfo (msg : string).

(** What a path holds.  The file system does not change during a run: a
    path that [isfile] accepts is not missing when it is opened. *)
Inductive File : Set :=
| Missing
    (* no regular file: [isfile] is false, [open] raises FileNotFoundError *)
| Unopenable (why : string)
    (* a regular file that [open] cannot open (any other exception) *)
| Readable (lines : list string) (failure : option string).
    (* [for line in f] yields [lines], then ends, or raises [failure] *)

Record World : Type := mkWorld {
  files : string -> File;
  write_error : string -> option string  (* [to_csv] raising, per path *)
}.

(** [os.path.isfile] *)
Definition isfile (w : World) (path : string) : bool :=
  match files w path with
  | Missing => false
  | _ => true
  end.

(** The parsed command line. *)
Record Args : Set := mkArgs {
  log_files : list string;
  output : string;
  timestamp_format : option (list string);
  priority : string;
  keywords : option (list string);
  verbose : bool;
  no_header : bool
}.

(** The file [to_csv] writes: columns timestamp, source, description. *)
Record Csv : Set := mkCsv {
  csv_path : string;
  csv_header : bool;
  csv_rows : list Event
}.

(** What a run of [main] leaves behind.  [run_opened] lists the paths given
    to [process_log_file], [run_events] is [all_events]. *)
Record Run : Set := mkRun {
  run_logs : list LogRecord;
  run_opened : list string;
  run_events : list Event;
  run_output : option Csv
}.

Inductive Outcome : Set :=
| Returned (r : Run)        (* [main] returns: the interpreter exits with 0 *)
| Uncaught (exn : string).  (* an exception leaves [main]: it exits with 1 *)

Definition exit_status (o : Outcome) : Z :=
  match o with
  | Returned _ => 0%Z
  | Uncaught _ => 1%Z
  end.

Section Engine.

(** [datetime.strptime]; [None] stands for [ValueError]. *)
Variable strptime : string -> string -> option datetime.

(** [DataFrame.sort_values(by="timestamp")] on the rows. *)
Variable sort_values : list Event -> list Event.

(** [parse_log_entry]: the loop over the formats, leaving at the first
    one that parses the text before the first space. *)
Fixpoint parse_log_entry (log_entry : string) (timestamp_formats : list string)
  : option datetime * string :=
  match timestamp_formats with
  | [] => (None, log_entry)
  | timestamp_format :: later =>
      let timestamp_str := split_head log_entry in
      match strptime timestamp_str timestamp_format with
      | Some dt =>
          let description :=
            strip (slice_from (String.length timestamp_str) log_entry) in
          (Some dt, description)
      | None => parse_log_entry log_entry later
      end
  end.

(** [keywords is None or any(keyword.lower() in description.lower() ...)] *)
Definition keyword_check (keywords : option (list string))
           (description : string) : bool :=
  match keywords with
  | None => true
  | Some ks =>
      existsb (fun keyword => contains (lower keyword) (lower description)) ks
  end.

Definition warning_for (line log_file_path : string) : LogRecord :=
  LogWarning ("Could not parse timestamp in line: " ++ line
              ++ " from " ++ log_file_path).

(** One round of the loop [for line in f] on the events collected and
    the records logged so far. *)
Definition ingest_line (log_file_path : string)
           (timestamp_formats : list string)
           (keywords : option (list string))
           (st : list Event * list LogRecord) (line : string)
  : list Event * list LogRecord :=
  let '(events, logs) := st in
  let line := strip line in
  if String.eqb line "" then st
  else
    match parse_log_entry line timestamp_formats with
    | (Some dt, description) =>
        if keyword_check keywords description
        then ((events ++ [mkEvent dt description log_file_path])%list, logs)
        else st
    | (None, _) => (events, (logs ++ [warning_for line log_file_path])%list)
    end.

Definition ingest_lines (log_file_path : string)
           (timestamp_formats : list string)
           (keywords : option (list string)) (lines : list string)
  : list Event * list LogRecord :=
  fold_left (ingest_line log_file_path timestamp_formats keywords)
            lines ([], []).

Definition error_for (log_file_path why : string) : LogRecord :=
  LogError ("Error processing log file " ++ log_file_path ++ ": " ++ why).

(** [process_log_file]: the events returned and the records logged.  An
    exception leaves the loop where it is raised; [events] is returned
    as it stands then. *)
Definition process_log_file (w : World) (log_file_path : string)
           (timestamp_formats : list string)
           (keywords : option (list string))
  : list Event * list LogRecord :=
  match files w log_file_path with
  | Missing => ([], [LogError ("Log file not found: " ++ log_file_path)])
  | Unopenable why => ([], [error_for log_file_path why])
  | Readable lines failure =>
      let '(events, logs) :=
        ingest_lines log_file_path timestamp_formats keywords lines in
      match failure with
      | None => (events, logs)
      | Some why => (events, (logs ++ [error_for log_file_path why])%list)
      end
  end.

(** One round of the loop of [main] over [args.log_files], on
    [all_events], the records logged and the paths opened so far. *)
Definition collect (w : World) (timestamp_formats : list string)
           (keywords : option (list string))
           (acc : list Event * list LogRecord * list string)
           (log_file : string)
  : list Event * list LogRecord * list string :=
  let '(all_events, logs, opened) := acc in
  let '(events, file_logs) :=
    process_log_file w log_file timestamp_formats keywords in
  ((all_events ++ events)%list, (logs ++ file_logs)%list,
   (opened ++ [log_file])%list).

Definition process_all (w : World) (timestamp_formats : list string)
           (keywords : option (list string)) (paths : list string)
  : list Event * list LogRecord * list string :=
  fold_left (collect w timestamp_formats keywords) paths ([], [], []).

(** [main], after [parse_args].  [args.verbose] only lowers the logging
    level to DEBUG, and the program logs nothing below INFO.  The priority
    is looked up in [EVENT_PRIORITIES] and not used afterwards. *)
Definition main (w : World) (args : Args) : Outcome :=
  match find (fun log_file => negb (isfile w log_file)) (log_files args) with
  | Some log_file =>
      Returned (mkRun [LogError ("Invalid log file path: " ++ log_file)]
                      [] [] None)
  | None =>
      let timestamp_formats :=
        match timestamp_format args with
        | Some (f :: fs) => f :: fs
        | _ => TIMESTAMP_FORMATS
        end in
      match getitem EVENT_PRIORITIES (priority args) with
      | None => Uncaught "KeyError"
      | Some min_priority_level =>
          let '(all_events, logs, opened) :=
            process_all w timestamp_formats (keywords args) (log_files args) in
          match all_events with
          | [] =>
              Returned
                (mkRun (logs ++ [LogWarning
                                   "No events found to generate timeline."])%list
                       opened all_events None)
          | _ :: _ =>
              let df := sort_values all_events in
              match write_error w (output args) with
              | None =>
                  Returned
                    (mkRun (logs ++ [LogInfo
                              ("Timeline generated successfully and saved to: "
                               ++ output args)])%list
                           opened all_events
                           (Some (mkCsv (output args) (negb (no_header args)) df)))
              | Some why =>
                  Returned
                    (mkRun (logs ++ [LogError
                              ("Error writing to CSV file: " ++ why)])%list
                           opened all_events None)
              end
          end
      end
  end.

End Engine.

(* ================================================================== *)
(** ** Definitions used to state the properties *)

Import Strptime.

(** The format has a blank run (or is no format of the model at all). *)
Definition is_blank_item (it : Item) : bool :=
  match it with
  | Blank => true
  | _ => false
  end.

Definition requires_blank (format : string) : bool :=
  match pattern format with
  | Some items => existsb is_blank_item items
  | None => true
  end.

(** What one line adds to the events and to the log, whatever was
    collected before it: the round of the loop run on nothing. *)
Definition line_step (strptime0 : string -> string -> option datetime)
           (path : string) (G : list string) (kws : option (list string))
           (raw : string) : list Event * list LogRecord :=
  ingest_line strptime0 path G kws ([], []) raw.

(** A line is recognised: not blank, and some format parses its token. *)
Definition recognised (strptime0 : string -> string -> option datetime)
           (G : list string) (raw : string) : bool :=
  negb (String.eqb (strip raw) "")
  && match fst (parse_log_entry strptime0 (strip raw) G) with
     | Some _ => true
     | None => false
     end.

(** The lines a path yields before its file ends or fails. *)
Definition lines_of (f : File) : list string :=
  match f with
  | Readable lines _ => lines
  | _ => []
  end.

(** How reading a file fails, when it does. *)
Definition failure_of (f : File) : option string :=
  match f with
  | Missing => None
  | Unopenable why => Some why
  | Readable _ failure => failure
  end.

(** The keyword occurs in the description as a substring, letter case
    ignored. *)
Definition occurs_ignoring_case (keyword description : string) : Prop :=
  exists before after, lower description = before ++ lower keyword ++ after.

(** The format list a run uses: the one given, when one is given. *)
Definition chosen_formats (args : Args) : list string :=
  match timestamp_format args with
  | Some (f :: fs) => f :: fs
  | _ => TIMESTAMP_FORMATS
  end.

(** A name of the priority enumeration. *)
Definition priority_name (p : string) : Prop :=
  In p (map fst EVENT_PRIORITIES).

(** The same command line with another [--priority]. *)
Definition with_priority (p : string) (args : Args) : Args :=
  mkArgs (log_files args) (output args) (timestamp_format args) p
         (keywords args) (verbose args) (no_header args).

(** Every character of the string is a blank. *)
Fixpoint all_blank (s : string) : bool :=
  match s with
  | "" => true
  | String c s' => isspace c && all_blank s'
  end.

(** The string begins with a blank. *)
Definition head_blank (s : string) : bool :=
  match s with
  | "" => false
  | String c _ => isspace c
  end.

(** The string ends with a blank. *)
Fixpoint last_blank (s : string) : bool :=
  match s with
  | "" => false
  | String c s' =>
      match s' with
      | "" => isspace c
      | String _ _ => last_blank s'
      end
  end.

(** The line is not skipped by [if not line: continue]. *)
Definition nonblank (raw : string) : bool :=
  negb (String.eqb (strip raw) "").

(** A world where every path reads as the given lines, then ends or fails,
    and every write succeeds. *)
Definition one_file (lines : list string) (failure : option string) : World :=
  mkWorld (fun _ => Readable lines failure) (fun _ => None).

(* ================================================================== *)
(** ** Facts about the string operations *)

Lemma split_head_no_space (s : string) :
  no_space s = true -> split_head s = s.
Proof.
  induction s as [|c s IH]; simpl; [reflexivity|].
  destruct (Ascii.eqb c " "); simpl; [discriminate|].
  intros H. now rewrite IH.
Qed.

Lemma slice_from_length (s : string) : slice_from (String.length s) s = "".
Proof. induction s as [|c s IH]; simpl; auto. Qed.

Lemma slice_from_split_head_no_space (s : string) :
  no_space s = true ->
  strip (slice_from (String.length (split_head s)) s) = "".
Proof.
  intros H. rewrite (split_head_no_space s H), slice_from_length. reflexivity.
Qed.

Lemma isspace_space_char (c : ascii) : Ascii.eqb c " " = true -> isspace c = true.
Proof. intros H. apply Ascii.eqb_eq in H. subst c. reflexivity. Qed.

Lemma no_blank_no_space (s : string) : has_blank s = false -> no_space s = true.
Proof.
  induction s as [|c s IH]; simpl; [reflexivity|].
  intros H. apply orb_false_iff in H as [Hc Hs].
  rewrite (IH Hs), andb_true_r.
  destruct (Ascii.eqb c " ") eqn:E; [|reflexivity].
  rewrite (isspace_space_char c E) in Hc. discriminate.
Qed.

Lemma has_blank_app_r (m r : string) :
  has_blank r = true -> has_blank (m ++ r) = true.
Proof.
  intros H. induction m as [|c m IH]; simpl; [exact H|].
  rewrite IH. apply orb_true_r.
Qed.

Lemma startswith_iff (p s : string) :
  startswith p s = true <-> exists rest, s = p ++ rest.
Proof.
  revert s. induction p as [|a p IH]; intros s; simpl.
  - split; [intros _; now exists s | reflexivity].
  - destruct s as [|b s].
    + split; [discriminate | intros [rest H]; discriminate].
    + rewrite andb_true_iff, Ascii.eqb_eq, IH. split.
      * intros [-> [rest ->]]. now exists rest.
      * intros [rest H]. injection H as -> ->. split; [reflexivity | now exists rest].
Qed.

Lemma contains_iff (sub s : string) :
  contains sub s = true <-> exists before after, s = before ++ sub ++ after.
Proof.
  induction s as [|c s IH].
  - simpl. rewrite orb_false_r, startswith_iff. split.
    + intros [rest H]. now exists "", rest.
    + intros [before [after H]]. destruct before as [|b before]; [|discriminate].
      now exists after.
  - cbn [contains]. rewrite orb_true_iff, startswith_iff, IH. split.
    + intros [[rest H] | [before [after H]]].
      * now exists "", rest.
      * exists (String c before), after. simpl. now rewrite H.
    + intros [before [after H]]. destruct before as [|b before].
      * left. now exists after.
      * right. simpl in H. injection H as _ H. now exists before, after.
Qed.

(* ================================================================== *)
(** ** Facts about the ordered trial of alternatives *)

Lemma first_some_Some {A B : Type} (f : A -> option B) (l : list A) (b : B) :
  first_some f l = Some b <->
  exists earlier a later,
    l = (earlier ++ a :: later)%list
    /\ (forall x, In x earlier -> f x = None)
    /\ f a = Some b.
Proof.
  induction l as [|x l IH]; simpl.
  - split; [discriminate|].
    intros (earlier & a & later & H & _). now destruct earlier.
  - destruct (f x) as [y|] eqn:Fx.
    + split.
      * intros H. exists [], x, l. repeat split; [|congruence].
        intros z [].
      * intros (earlier & a & later & H & Hnone & Ha).
        destruct earlier as [|e earlier]; simpl in H.
        -- injection H as -> ->. congruence.
        -- injection H as <- ->.
           rewrite (Hnone x (or_introl eq_refl)) in Fx. discriminate.
    + rewrite IH. split.
      * intros (earlier & a & later & -> & Hnone & Ha).
        exists (x :: earlier), a, later. repeat split; [|exact Ha].
        intros z [<- | Hz]; auto.
      * intros (earlier & a & later & H & Hnone & Ha).
        destruct earlier as [|e earlier]; simpl in H.
        -- injection H as -> ->. congruence.
        -- injection H as <- ->.
           exists earlier, a, later. repeat split; [|exact Ha].
           intros z Hz. apply Hnone. now right.
Qed.

Lemma first_some_None {A B : Type} (f : A -> option B) (l : list A) :
  first_some f l = None <-> forall x, In x l -> f x = None.
Proof.
  induction l as [|x l IH]; simpl.
  - split; [intros _ z [] | reflexivity].
  - destruct (f x) as [y|] eqn:Fx.
    + split; [discriminate|]. intros H.
      rewrite (H x (or_introl eq_refl)) in Fx. discriminate.
    + rewrite IH. split.
      * intros H z [<- | Hz]; auto.
      * intros H z Hz. apply H. now right.
Qed.

Lemma first_some_In {A B : Type} (f : A -> option B) (l : list A) (b : B) :
  first_some f l = Some b -> exists a, In a l /\ f a = Some b.
Proof.
  intros H. apply first_some_Some in H as (earlier & a & later & -> & _ & Ha).
  exists a. split; [|exact Ha]. apply in_or_app. right. now left.
Qed.

(** [parse_log_entry] is the ordered trial of the formats on the text
    before the first space. *)
Lemma parse_log_entry_first_some
      (strptime : string -> string -> option datetime)
      (log_entry : string) (G : list string) :
  parse_log_entry strptime log_entry G =
  match first_some (strptime (split_head log_entry)) G with
  | Some dt =>
      (Some dt,
       strip (slice_from (String.length (split_head log_entry)) log_entry))
  | None => (None, log_entry)
  end.
Proof.
  induction G as [|g G IH]; simpl; [reflexivity|].
  destruct (strptime (split_head log_entry) g); [reflexivity | exact IH].
Qed.

(* ================================================================== *)
(** ** A format with a blank parses no text without one *)

Lemma match_classes_split (cls : list CharClass) (s m r : string) :
  match_classes cls s = Some (m, r) -> s = m ++ r.
Proof.
  revert s m r. induction cls as [|p cls IH]; intros s m r; simpl.
  - intros H. injection H as <- <-. reflexivity.
  - destruct s as [|c s]; [discriminate|].
    destruct (p c); [|discriminate].
    destruct (match_classes cls s) as [[m' r']|] eqn:E; [|discriminate].
    intros H. injection H as <- <-. simpl. now rewrite (IH s m' r' E).
Qed.

Lemma blank_runs_split (s m r : string) :
  In (m, r) (blank_runs s) -> s = m ++ r.
Proof.
  revert m r. induction s as [|c s IH]; intros m r; simpl; [intros []|].
  destruct (isspace c); [|intros []].
  intros H. apply in_app_or in H as [H | [H | []]].
  - apply in_map_iff in H as [[m' r'] [E H]]. simpl in E.
    injection E as <- <-. simpl. now rewrite (IH m' r' H).
  - injection H as <- <-. reflexivity.
Qed.

Lemma blank_runs_has_blank (s : string) (mr : string * string) :
  In mr (blank_runs s) -> has_blank s = true.
Proof.
  destruct s as [|c s]; simpl; [intros []|].
  destruct (isspace c); [reflexivity | intros []].
Qed.

Lemma alternatives_split (it : Item) (s m r : string) :
  In (m, r) (alternatives it s) -> s = m ++ r.
Proof.
  destruct it as [x| |d]; simpl.
  - destruct s as [|c s]; [intros []|].
    destruct (letter x c); [|intros []].
    intros [H | []]. injection H as <- <-. reflexivity.
  - apply blank_runs_split.
  - intros H. apply in_flat_map in H as [cls [_ H]].
    destruct (match_classes cls s) as [[m' r']|] eqn:E; [|destruct H].
    destruct H as [H | []]. injection H as <- <-.
    exact (match_classes_split cls s m' r' E).
Qed.

Lemma re_match_needs_blank (items : list Item) :
  In Blank items ->
  forall (s : string) (found : Found) (res : Found * string),
    re_match items s found = Some res -> has_blank s = true.
Proof.
  induction items as [|it items IH]; intros Hin s found res; [destruct Hin|].
  cbn [re_match]. intros H.
  apply first_some_In in H as [[m r] [Halt Hrest]]. simpl in Hrest.
  destruct Hin as [-> | Hin].
  - exact (blank_runs_has_blank s (m, r) Halt).
  - rewrite (alternatives_split it s m r Halt).
    apply has_blank_app_r. exact (IH Hin r _ res Hrest).
Qed.

Lemma strptime_requires_blank (data_string format : string) :
  requires_blank format = true ->
  has_blank data_string = false ->
  strptime data_string format = None.
Proof.
  unfold requires_blank, strptime. intros Hreq Hdata.
  destruct (pattern format) as [items|]; [|reflexivity].
  apply existsb_exists in Hreq as [it [Hin Hit]].
  destruct it; try discriminate.
  destruct (re_match items data_string []) as [[found rest]|] eqn:E;
    [|reflexivity].
  rewrite (re_match_needs_blank items Hin data_string [] _ E) in Hdata.
  discriminate.
Qed.

Lemma default_formats_require_blank :
  forallb requires_blank TIMESTAMP_FORMATS = true.
Proof. vm_compute. reflexivity. Qed.

(* ================================================================== *)
(** ** The line parser *)

(** C1.  The scenario line "2024-01-15 10:30:00 Disk failure detected" with
    the default format list: the text before the first space is only the
    date, "2024-01-15", every default format asks for a blank and a time
    after the date, so none parses it; [parse_log_entry] returns no
    timestamp and the whole line, and [process_log_file] logs a warning and
    appends no event.  The first default format does parse the date and time
    together, to 2024-01-15T10:30:00: the event of the scenario is what the
    format list is written for and what the split keeps it from. *)
Theorem scenario1_default_formats_find_no_timestamp :
  let line := "2024-01-15 10:30:00 Disk failure detected" in
  let w := mkWorld (fun _ => Readable [line] None) (fun _ => None) in
  split_head line = "2024-01-15"
  /\ parse_log_entry strptime line TIMESTAMP_FORMATS = (None, line)
  /\ process_log_file strptime w "a.log" TIMESTAMP_FORMATS None
     = ([], [warning_for line "a.log"])
  /\ strptime "2024-01-15 10:30:00" "%Y-%m-%d %H:%M:%S"
     = Some (mkdatetime 2024 1 15 10 30 0 0).
Proof. vm_compute. repeat split. Qed.





(* ================================================================== *)
(** ** The loop over the lines of a file *)

Section Ingest.

Variable strptime0 : string -> string -> option datetime.
Variables (path : string) (G : list string) (kws : option (list string)).

Local Abbreviation step := (line_step strptime0 path G kws).
Local Abbreviation known := (recognised strptime0 G).

Lemma ingest_line_frame (events : list Event) (logs : list LogRecord)
      (raw : string) :
  ingest_line strptime0 path G kws (events, logs) raw
  = ((events ++ fst (step raw))%list, (logs ++ snd (step raw))%list).
Proof.
  unfold line_step, ingest_line.
  destruct (String.eqb (strip raw) ""); simpl; [now rewrite !app_nil_r|].
  destruct (parse_log_entry strptime0 (strip raw) G) as [[dt|] d]; simpl.
  - destruct (keyword_check kws d); simpl; now rewrite !app_nil_r.
  - now rewrite app_nil_r.
Qed.

Lemma ingest_fold_frame (lines : list string) :
  forall (events : list Event) (logs : list LogRecord),
    fold_left (ingest_line strptime0 path G kws) lines (events, logs)
    = ((events ++ flat_map (fun raw => fst (step raw)) lines)%list,
       (logs ++ flat_map (fun raw => snd (step raw)) lines)%list).
Proof.
  induction lines as [|raw lines IH]; intros events logs;
    cbn [fold_left flat_map].
  - now rewrite !app_nil_r.
  - rewrite ingest_line_frame, IH, <- !app_assoc. reflexivity.
Qed.

Lemma ingest_lines_flat_map (lines : list string) :
  ingest_lines strptime0 path G kws lines
  = (flat_map (fun raw => fst (step raw)) lines,
     flat_map (fun raw => snd (step raw)) lines).
Proof. unfold ingest_lines. now rewrite ingest_fold_frame. Qed.

Lemma line_step_event (raw : string) (e : Event) :
  In e (fst (step raw)) ->
  strip raw <> ""
  /\ parse_log_entry strptime0 (strip raw) G = (Some (timestamp e), description e)
  /\ source e = path
  /\ keyword_check kws (description e) = true.
Proof.
  unfold line_step, ingest_line.
  destruct (String.eqb (strip raw) "") eqn:E; simpl; [intros []|].
  apply String.eqb_neq in E.
  destruct (parse_log_entry strptime0 (strip raw) G) as [[dt|] d]; simpl;
    [|intros []].
  destruct (keyword_check kws d) eqn:K; simpl; [|intros []].
  intros [<- | []]. simpl. auto.
Qed.

Lemma line_step_unparsed (raw : string) :
  strip raw <> "" ->
  fst (parse_log_entry strptime0 (strip raw) G) = None ->
  step raw = ([], [warning_for (strip raw) path]).
Proof.
  intros Hne Hnone. unfold line_step, ingest_line.
  apply String.eqb_neq in Hne. rewrite Hne.
  destruct (parse_log_entry strptime0 (strip raw) G) as [[dt|] d];
    simpl in Hnone; [discriminate | reflexivity].
Qed.

Lemma line_step_parsed (raw : string) (dt : datetime) (d : string) :
  strip raw <> "" ->
  parse_log_entry strptime0 (strip raw) G = (Some dt, d) ->
  step raw
  = (if keyword_check kws d then [mkEvent dt d path] else [], []).
Proof.
  intros Hne Hp. unfold line_step, ingest_line.
  apply String.eqb_neq in Hne. rewrite Hne, Hp.
  destruct (keyword_check kws d); reflexivity.
Qed.

Lemma line_step_count (raw : string) :
  (List.length (fst (step raw))
   <= if known raw then 1 else 0)%nat.
Proof.
  unfold line_step, ingest_line, recognised.
  destruct (String.eqb (strip raw) ""); simpl; [lia|].
  destruct (parse_log_entry strptime0 (strip raw) G) as [[dt|] d]; simpl;
    [|lia].
  destruct (keyword_check kws d); simpl; lia.
Qed.

Lemma events_count (lines : list string) :
  (List.length (flat_map (fun raw => fst (step raw)) lines)
   <= List.length (filter known lines))%nat.
Proof.
  induction lines as [|raw lines IH]; simpl; [lia|].
  rewrite length_app. pose proof (line_step_count raw) as H.
  destruct (known raw); simpl; lia.
Qed.

End Ingest.

Lemma process_log_file_events
      (strptime0 : string -> string -> option datetime) (w : World)
      (path : string) (G : list string) (kws : option (list string)) :
  fst (process_log_file strptime0 w path G kws)
  = flat_map (fun raw => fst (line_step strptime0 path G kws raw))
             (lines_of (files w path)).
Proof.
  unfold process_log_file.
  destruct (files w path) as [|why|lines failure]; simpl; try reflexivity.
  rewrite ingest_lines_flat_map. now destruct failure.
Qed.

Lemma process_log_file_logs
      (strptime0 : string -> string -> option datetime) (w : World)
      (path : string) (G : list string) (kws : option (list string))
      (r : LogRecord) :
  In r (flat_map (fun raw => snd (line_step strptime0 path G kws raw))
                 (lines_of (files w path))) ->
  In r (snd (process_log_file strptime0 w path G kws)).
Proof.
  unfold process_log_file.
  destruct (files w path) as [|why|lines failure]; simpl; try (intros []).
  rewrite ingest_lines_flat_map. destruct failure; simpl; [|auto].
  intros H. apply in_or_app. now left.
Qed.

(* ================================================================== *)
(** ** File ingestion *)


Lemma keyword_check_Some (ks : list string) (d : string) :
  keyword_check (Some ks) d = true <->
  exists k, In k ks /\ occurs_ignoring_case k d.
Proof.
  unfold keyword_check, occurs_ignoring_case. rewrite existsb_exists.
  split; intros [k [Hk H]]; exists k; split; auto; now apply contains_iff.
Qed.

Lemma occurs_empty_keyword (d : string) : occurs_ignoring_case "" d.
Proof. exists "", (lower d). reflexivity. Qed.



(** C10.  An empty keyword list retains nothing: the check over the empty
    list is false for every description, so [process_log_file] returns no
    event, whatever the file holds; with no keyword list the check is true
    for every description. *)
Theorem empty_keyword_list_retains_nothing
        (strptime0 : string -> string -> option datetime) (w : World)
        (path : string) (G : list string) :
  fst (process_log_file strptime0 w path G (Some [])) = []
  /\ (forall d, keyword_check (Some []) d = false)
  /\ (forall d, keyword_check None d = true).
Proof.
  repeat split.
  rewrite process_log_file_events.
  induction (lines_of (files w path)) as [|raw lines IH]; [reflexivity|].
  cbn [flat_map]. rewrite IH, app_nil_r.
  unfold line_step, ingest_line.
  destruct (String.eqb (strip raw) ""); [reflexivity|].
  now destruct (parse_log_entry strptime0 (strip raw) G) as [[dt|] d].
Qed.

(* ================================================================== *)
(** ** Runs of [main] *)

Lemma priority_name_getitem (p : string) :
  priority_name p -> exists n, getitem EVENT_PRIORITIES p = Some n.
Proof.
  unfold priority_name. simpl.
  intros [<- | [<- | [<- | [<- | [<- | []]]]]]; eexists; reflexivity.
Qed.

Lemma find_first {A : Type} (f : A -> bool) (l : list A) :
  (exists x, In x l /\ f x = true) ->
  exists earlier x later,
    l = (earlier ++ x :: later)%list
    /\ (forall y, In y earlier -> f y = false)
    /\ f x = true
    /\ find f l = Some x.
Proof.
  induction l as [|a l IH]; intros [x [Hin Hx]]; [destruct Hin|].
  destruct (f a) eqn:Fa.
  - exists [], a, l. simpl. rewrite Fa. repeat split; auto. intros y [].
  - destruct Hin as [-> | Hin]; [congruence|].
    destruct (IH (ex_intro _ x (conj Hin Hx)))
      as (earlier & x' & later & -> & Hnone & Hx' & Hfind).
    exists (a :: earlier), x', later. simpl. rewrite Fa.
    repeat split; auto. intros y [<- | Hy]; auto.
Qed.

Lemma find_all_false {A : Type} (f : A -> bool) (l : list A) :
  (forall x, In x l -> f x = false) -> find f l = None.
Proof.
  induction l as [|a l IH]; intros H; simpl; [reflexivity|].
  rewrite (H a (or_introl eq_refl)). apply IH. intros x Hx. apply H. now right.
Qed.

Section Runs.

Variable strptime0 : string -> string -> option datetime.
Variable sort0 : list Event -> list Event.
Variable w : World.

Lemma collect_fold (G : list string) (kws : option (list string))
      (paths : list string) :
  forall (all_events : list Event) (logs : list LogRecord)
         (opened : list string),
    fold_left (collect strptime0 w G kws) paths (all_events, logs, opened)
    = ((all_events
        ++ flat_map (fun q => fst (process_log_file strptime0 w q G kws)) paths)%list,
       (logs
        ++ flat_map (fun q => snd (process_log_file strptime0 w q G kws)) paths)%list,
       (opened ++ paths)%list).
Proof.
  induction paths as [|q paths IH]; intros all_events logs opened;
    cbn [fold_left flat_map].
  - now rewrite !app_nil_r.
  - unfold collect at 2.
    destruct (process_log_file strptime0 w q G kws) as [events file_logs].
    rewrite IH, <- !app_assoc. reflexivity.
Qed.

Lemma process_all_flat_map (G : list string) (kws : option (list string))
      (paths : list string) :
  process_all strptime0 w G kws paths
  = (flat_map (fun q => fst (process_log_file strptime0 w q G kws)) paths,
     flat_map (fun q => snd (process_log_file strptime0 w q G kws)) paths,
     paths).
Proof. unfold process_all. now rewrite collect_fold. Qed.

(** A run whose paths are all files and whose priority is a name of the
    enumeration: every path is given to [process_log_file], in order, and
    [all_events] is the events of the files one after the other. *)
Lemma main_processes_all (args : Args) :
  (forall q, In q (log_files args) -> isfile w q = true) ->
  priority_name (priority args) ->
  exists r,
    main strptime0 sort0 w args = Returned r
    /\ run_opened r = log_files args
    /\ run_events r
       = flat_map (fun q => fst (process_log_file strptime0 w q
                                   (chosen_formats args) (keywords args)))
                  (log_files args)
    /\ (forall x,
          In x (flat_map (fun q => snd (process_log_file strptime0 w q
                                          (chosen_formats args) (keywords args)))
                         (log_files args)) ->
          In x (run_logs r))
    /\ (forall csv, run_output r = Some csv ->
                    csv_rows csv = sort0 (run_events r)).
Proof.
  intros Hfiles Hprio. unfold main.
  rewrite find_all_false
    by (intros q Hq; now rewrite (Hfiles q Hq)).
  destruct (priority_name_getitem _ Hprio) as [n ->].
  fold (chosen_formats args). rewrite process_all_flat_map.
  set (evs := flat_map _ (log_files args)).
  set (lgs := flat_map _ (log_files args)).
  destruct evs as [|e evs'] eqn:E.
  - eexists. split; [reflexivity|]. cbn. repeat split; auto.
    + intros x Hx. apply in_or_app. now left.
    + discriminate.
  - destruct (write_error w (output args)) as [why|].
    + eexists. split; [reflexivity|]. cbn. repeat split; auto.
      * intros x Hx. apply in_or_app. now left.
      * discriminate.
    + eexists. split; [reflexivity|]. cbn. repeat split; auto.
      * intros x Hx. apply in_or_app. now left.
      * intros csv H. injection H as <-. reflexivity.
Qed.

End Runs.




(** C8, the input that refutes it as stated.  The run names a path that
    does not exist; [main] logs the error and returns, and the exit status
    is 0, not a failure status. *)
Lemma missing_file_run_exits_with_zero :
  let w := mkWorld (fun _ => Missing) (fun _ => None) in
  let args := mkArgs ["gone.log"] "timeline.csv" None "info" None
                     false false in
  isfile w "gone.log" = false
  /\ main strptime (fun rows => rows) w args
     = Returned (mkRun [LogError "Invalid log file path: gone.log"] [] [] None)
  /\ exit_status (main strptime (fun rows => rows) w args) = 0%Z.
Proof. vm_compute. repeat split. Qed.

(** C8, amended.  When some named path is not an existing file, [main]
    logs one error, naming the first such path, and returns at once: no
    path is given to [process_log_file], no event is collected, nothing is
    written.  The run returns normally, so its exit status is 0. *)
Theorem missing_file_stops_run_before_processing
        (strptime0 : string -> string -> option datetime)
        (sort0 : list Event -> list Event) (w : World) (args : Args) :
  (exists p, In p (log_files args) /\ isfile w p = false) ->
  exists earlier p later,
    log_files args = (earlier ++ p :: later)%list
    /\ (forall q, In q earlier -> isfile w q = true)
    /\ isfile w p = false
    /\ main strptime0 sort0 w args
       = Returned (mkRun [LogError ("Invalid log file path: " ++ p)] [] [] None)
    /\ exit_status (main strptime0 sort0 w args) = 0%Z.
Proof.
  intros [p [Hin Hp]].
  destruct (find_first (fun q => negb (isfile w q)) (log_files args))
    as (earlier & p' & later & Hsplit & Hearlier & Hp' & Hfind).
  { exists p. split; [exact Hin|]. now rewrite Hp. }
  assert (Hmain : main strptime0 sort0 w args
                  = Returned (mkRun [LogError ("Invalid log file path: " ++ p')]
                                    [] [] None)).
  { unfold main. now rewrite Hfind. }
  exists earlier, p', later. repeat split.
  - exact Hsplit.
  - intros q Hq. specialize (Hearlier q Hq). now destruct (isfile w q).
  - now destruct (isfile w p').
  - exact Hmain.
  - now rewrite Hmain.
Qed.

Lemma missing_file_stops_run_before_processing_witness :
  let w := mkWorld (fun q => if String.eqb q "a.log"
                             then Readable ["2024-01-15 boot"] None
                             else Missing)
                   (fun _ => None) in
  let args := mkArgs ["a.log"; "gone.log"; "lost.log"] "timeline.csv"
                     (Some ["%Y-%m-%d"]) "info" None false false in
  exists earlier p later,
    ["a.log"; "gone.log"; "lost.log"] = (earlier ++ p :: later)%list
    /\ (forall q, In q earlier -> isfile w q = true)
    /\ isfile w p = false
    /\ main strptime (fun rows => rows) w args
       = Returned (mkRun [LogError ("Invalid log file path: " ++ p)] [] [] None)
    /\ exit_status (main strptime (fun rows => rows) w args) = 0%Z.
Proof.
  intros w args.
  apply (missing_file_stops_run_before_processing
           strptime (fun rows => rows) w args).
  exists "lost.log". split; [|reflexivity].
  simpl. right. right. now left.
Defined.

(** C9.  The minimum priority changes nothing.  Two runs that differ only
    in the priority name, both names of the enumeration, have the same
    outcome: the same log, the same events, the same file written.  In
    such a run the events are those of the files, one file after the other,
    none left out, and the rows written are those events sorted. *)
Theorem minimum_priority_changes_nothing
        (strptime0 : string -> string -> option datetime)
        (sort0 : list Event -> list Event) (w : World) (args : Args)
        (p1 p2 : string) :
  priority_name p1 ->
  priority_name p2 ->
  main strptime0 sort0 w (with_priority p1 args)
  = main strptime0 sort0 w (with_priority p2 args)
  /\ forall r,
       main strptime0 sort0 w (with_priority p1 args) = Returned r ->
       run_events r
       = flat_map (fun q => fst (process_log_file strptime0 w q
                                   (chosen_formats args) (keywords args)))
                  (run_opened r)
       /\ forall csv, run_output r = Some csv ->
                      csv_rows csv = sort0 (run_events r).
Proof.
  intros H1 H2.
  destruct (priority_name_getitem p1 H1) as [n1 E1].
  destruct (priority_name_getitem p2 H2) as [n2 E2].
  split.
  - unfold main.
    cbn [with_priority log_files output timestamp_format priority keywords
         verbose no_header].
    now rewrite E1, E2.
  - intros r Hr. unfold main in Hr.
    cbn [with_priority log_files output timestamp_format priority keywords
         verbose no_header] in Hr.
    destruct (find (fun q => negb (isfile w q)) (log_files args)).
    + injection Hr as <-. simpl. split; [reflexivity | discriminate].
    + rewrite E1 in Hr. fold (chosen_formats args) in Hr.
      rewrite process_all_flat_map in Hr.
      destruct (flat_map
                  (fun q => fst (process_log_file strptime0 w q
                                   (chosen_formats args) (keywords args)))
                  (log_files args)) as [|e evs] eqn:E.
      * injection Hr as <-. simpl. split; [now rewrite E | discriminate].
      * destruct (write_error w (output args)).
        -- injection Hr as <-. simpl. split; [now rewrite E | discriminate].
        -- injection Hr as <-. simpl. split; [now rewrite E|].
           intros csv H. injection H as <-. reflexivity.
Qed.

Lemma minimum_priority_changes_nothing_witness :
  let w := mkWorld (fun _ => Readable ["2024-01-15 CRITICAL disk failure";
                                       "2024-01-14 info: started"] None)
                   (fun _ => None) in
  let args := mkArgs ["a.log"] "timeline.csv" (Some ["%Y-%m-%d"]) "info"
                     None false false in
  main strptime (fun rows => rows) w (with_priority "critical" args)
  = main strptime (fun rows => rows) w (with_priority "info" args).
Proof.
  intros w args.
  apply (proj1 (minimum_priority_changes_nothing
                  strptime (fun rows => rows) w args "critical" "info"
                  (or_introl eq_refl)
                  (or_intror (or_intror (or_intror (or_intror
                     (or_introl eq_refl))))))).
Defined.



(* ================================================================== *)
(** ** Further properties: trimming and splitting *)

Lemma lstrip_split (s : string) :
  exists lead, s = lead ++ lstrip s /\ all_blank lead = true.
Proof.
  induction s as [|c s [lead [E B]]]; simpl.
  - now exists "".
  - destruct (isspace c) eqn:C.
    + exists (String c lead). simpl. now rewrite C, B, <- E.
    + now exists "".
Qed.

Lemma rstrip_split (s : string) :
  exists trail, s = rstrip s ++ trail /\ all_blank trail = true.
Proof.
  induction s as [|c s [trail [E B]]]; simpl.
  - now exists "".
  - destruct (rstrip s) as [|a r] eqn:R.
    + destruct (isspace c) eqn:C.
      * exists (String c trail). simpl in *. rewrite C, B. now subst s.
      * exists trail. simpl in *. now subst s.
    + exists trail. simpl in *. now rewrite <- E.
Qed.

Lemma lstrip_head (s : string) : head_blank (lstrip s) = false.
Proof.
  induction s as [|c s IH]; simpl; [reflexivity|].
  destruct (isspace c) eqn:C; [exact IH | simpl; exact C].
Qed.

Lemma rstrip_head (s : string) :
  head_blank s = false -> head_blank (rstrip s) = false.
Proof.
  destruct s as [|c s]; simpl; [reflexivity|]. intros C.
  destruct (rstrip s); [now rewrite C | exact C].
Qed.

Lemma rstrip_last (s : string) : last_blank (rstrip s) = false.
Proof.
  induction s as [|c s IH]; simpl; [reflexivity|].
  destruct (rstrip s) as [|a r] eqn:R.
  - destruct (isspace c) eqn:C; simpl; [reflexivity | exact C].
  - exact IH.
Qed.

Lemma strip_split (s : string) :
  exists lead trail,
    s = lead ++ strip s ++ trail
    /\ all_blank lead = true /\ all_blank trail = true.
Proof.
  destruct (lstrip_split s) as [lead [E B]].
  destruct (rstrip_split (lstrip s)) as [trail [E' B']].
  exists lead, trail. unfold strip. now rewrite <- E', <- E.
Qed.

Lemma split_head_slice (s : string) :
  s = split_head s ++ slice_from (String.length (split_head s)) s.
Proof.
  induction s as [|c s IH]; simpl; [reflexivity|].
  destruct (Ascii.eqb c " "); simpl; [reflexivity | now rewrite <- IH].
Qed.

Lemma split_head_has_no_space (s : string) : no_space (split_head s) = true.
Proof.
  induction s as [|c s IH]; simpl; [reflexivity|].
  destruct (Ascii.eqb c " ") eqn:C; simpl; [reflexivity | now rewrite C].
Qed.

(* ================================================================== *)
(** ** Further properties: the line parser *)

(** X2.  With the default formats, a line whose text before the first
    space holds no blank (no tab or other whitespace character inside it) is
    never recognised: the parser returns no timestamp and the line. *)
Theorem default_formats_need_blank_in_token (line : string) :
  has_blank (split_head line) = false ->
  parse_log_entry strptime line TIMESTAMP_FORMATS = (None, line).
Proof.
  intros Hblank. rewrite parse_log_entry_first_some.
  assert (E : first_some (strptime (split_head line)) TIMESTAMP_FORMATS = None).
  { apply first_some_None. intros g Hg.
    apply strptime_requires_blank; [|exact Hblank].
    pose proof default_formats_require_blank as D.
    rewrite forallb_forall in D. now apply D. }
  now rewrite E.
Qed.

Lemma default_formats_need_blank_in_token_witness :
  parse_log_entry strptime "01/02/2024 08:00:00 user login" TIMESTAMP_FORMATS
  = (None, "01/02/2024 08:00:00 user login").
Proof.
  apply (default_formats_need_blank_in_token "01/02/2024 08:00:00 user login").
  reflexivity.
Defined.

(** X4.  When the parser finds a timestamp, the line is the timestamp text
    (which has no space), then blanks, then the description, then blanks;
    the description neither begins nor ends with a blank, and it is the
    same whichever format parsed the timestamp text. *)
Theorem parsed_entry_description
        (strptime0 : string -> string -> option datetime)
        (log_entry : string) (G : list string) (dt : datetime) (d : string) :
  parse_log_entry strptime0 log_entry G = (Some dt, d) ->
  d = strip (slice_from (String.length (split_head log_entry)) log_entry)
  /\ no_space (split_head log_entry) = true
  /\ (exists lead trail,
        log_entry = split_head log_entry ++ lead ++ d ++ trail
        /\ all_blank lead = true /\ all_blank trail = true)
  /\ head_blank d = false
  /\ last_blank d = false.
Proof.
  rewrite parse_log_entry_first_some.
  destruct (first_some (strptime0 (split_head log_entry)) G); [|discriminate].
  intros H. injection H as _ <-.
  split; [reflexivity|]. split; [apply split_head_has_no_space|].
  split; [|split].
  - destruct (strip_split
                (slice_from (String.length (split_head log_entry)) log_entry))
      as (lead & trail & E & Bl & Bt).
    exists lead, trail. split; [|auto].
    rewrite <- E. apply split_head_slice.
  - unfold strip. apply rstrip_head, lstrip_head.
  - unfold strip. apply rstrip_last.
Qed.

Lemma parsed_entry_description_witness :
  "disk  full" = strip (slice_from (String.length
                                      (split_head "2024-01-15   disk  full  "))
                                   "2024-01-15   disk  full  ")
  /\ no_space (split_head "2024-01-15   disk  full  ") = true
  /\ (exists lead trail,
        "2024-01-15   disk  full  "
        = split_head "2024-01-15   disk  full  " ++ lead ++ "disk  full" ++ trail
        /\ all_blank lead = true /\ all_blank trail = true)
  /\ head_blank "disk  full" = false
  /\ last_blank "disk  full" = false.
Proof.
  apply (parsed_entry_description strptime "2024-01-15   disk  full  "
           ["%Y-%m-%d"] (mkdatetime 2024 1 15 0 0 0 0) "disk  full").
  reflexivity.
Defined.

(* ================================================================== *)
(** ** Further properties: file ingestion *)

Section MoreIngest.

Variable strptime0 : string -> string -> option datetime.
Variables (path : string) (G : list string).

Lemma process_log_file_eq (w : World) (kws : option (list string)) :
  process_log_file strptime0 w path G kws
  = match files w path with
    | Missing => ([], [LogError ("Log file not found: " ++ path)])
    | Unopenable why => ([], [error_for path why])
    | Readable lines failure =>
        (flat_map (fun raw => fst (line_step strptime0 path G kws raw)) lines,
         (flat_map (fun raw => snd (line_step strptime0 path G kws raw)) lines
          ++ match failure with
             | Some why => [error_for path why]
             | None => []
             end)%list)
    end.
Proof.
  unfold process_log_file.
  destruct (files w path) as [|why|lines failure]; try reflexivity.
  rewrite ingest_lines_flat_map.
  destruct failure; [reflexivity | now rewrite app_nil_r].
Qed.

Lemma filter_flat_map {A B : Type} (f : A -> list B) (keep : B -> bool)
      (l : list A) :
  filter keep (flat_map f l) = flat_map (fun x => filter keep (f x)) l.
Proof.
  induction l as [|x l IH]; simpl; [reflexivity|].
  now rewrite filter_app, IH.
Qed.

Lemma line_step_keywords (kws : option (list string)) (raw : string) :
  fst (line_step strptime0 path G kws raw)
  = filter (fun e => keyword_check kws (description e))
           (fst (line_step strptime0 path G None raw))
  /\ snd (line_step strptime0 path G kws raw)
     = snd (line_step strptime0 path G None raw).
Proof.
  unfold line_step, ingest_line.
  destruct (String.eqb (strip raw) ""); [now split|].
  destruct (parse_log_entry strptime0 (strip raw) G) as [[dt|] d];
    [|now split].
  cbn [keyword_check]. cbn [fst snd app filter description].
  destruct (keyword_check kws d); now split.
Qed.

Lemma line_step_lengths (kws : option (list string)) (raw : string) :
  (List.length (fst (line_step strptime0 path G kws raw))
   + List.length (snd (line_step strptime0 path G kws raw))
   <= if nonblank raw then 1 else 0)%nat
  /\ (kws = None ->
      List.length (fst (line_step strptime0 path G kws raw))
      + List.length (snd (line_step strptime0 path G kws raw))
      = if nonblank raw then 1 else 0)%nat.
Proof.
  unfold line_step, ingest_line, nonblank.
  destruct (String.eqb (strip raw) ""); simpl; [split; auto|].
  destruct (parse_log_entry strptime0 (strip raw) G) as [[dt|] d]; simpl;
    [|split; auto].
  split.
  - destruct (keyword_check kws d); simpl; lia.
  - intros ->. reflexivity.
Qed.

Lemma flat_map_lengths (kws : option (list string)) (lines : list string) :
  (List.length (flat_map (fun raw => fst (line_step strptime0 path G kws raw))
                         lines)
   + List.length (flat_map (fun raw => snd (line_step strptime0 path G kws raw))
                           lines)
   <= List.length (filter nonblank lines))%nat
  /\ (kws = None ->
      List.length (flat_map (fun raw => fst (line_step strptime0 path G kws raw))
                            lines)
      + List.length (flat_map (fun raw => snd (line_step strptime0 path G kws raw))
                              lines)
      = List.length (filter nonblank lines))%nat.
Proof.
  induction lines as [|raw lines [IHle IHeq]]; simpl; [split; auto|].
  rewrite !length_app.
  destruct (line_step_lengths kws raw) as [Hle Heq].
  split.
  - destruct (nonblank raw); simpl; lia.
  - intros K. specialize (IHeq K). specialize (Heq K).
    destruct (nonblank raw); simpl; lia.
Qed.

End MoreIngest.

(** X8.  The keyword list only filters: the events returned with a
    keyword list are those returned without one that pass the keyword
    check, in the same order, and the log is the same with and without
    it (a line filtered out is not logged). *)
Theorem keywords_only_filter
        (strptime0 : string -> string -> option datetime) (w : World)
        (path : string) (G : list string) (kws : option (list string)) :
  fst (process_log_file strptime0 w path G kws)
  = filter (fun e => keyword_check kws (description e))
           (fst (process_log_file strptime0 w path G None))
  /\ snd (process_log_file strptime0 w path G kws)
     = snd (process_log_file strptime0 w path G None).
Proof.
  rewrite !process_log_file_eq.
  destruct (files w path) as [|why|lines failure]; cbn [fst snd];
    try (split; reflexivity).
  split.
  - rewrite filter_flat_map. apply flat_map_ext. intros raw.
    apply line_step_keywords.
  - f_equal. apply flat_map_ext. intros raw. apply line_step_keywords.
Qed.



(* ================================================================== *)
(** ** Further properties: runs of [main] *)

Section MoreRuns.

Variable strptime0 : string -> string -> option datetime.
Variable sort0 : list Event -> list Event.
Variable w : World.

(** What [main] returns after the loop over the files, case by case. *)
Lemma main_after_validation (args : Args) :
  (forall q, In q (log_files args) -> isfile w q = true) ->
  priority_name (priority args) ->
  let events :=
    flat_map (fun q => fst (process_log_file strptime0 w q
                              (chosen_formats args) (keywords args)))
             (log_files args) in
  let logs :=
    flat_map (fun q => snd (process_log_file strptime0 w q
                              (chosen_formats args) (keywords args)))
             (log_files args) in
  main strptime0 sort0 w args
  = match events with
    | [] =>
        Returned (mkRun (logs ++ [LogWarning
                                    "No events found to generate timeline."])%list
                        (log_files args) events None)
    | _ :: _ =>
        match write_error w (output args) with
        | None =>
            Returned
              (mkRun (logs ++ [LogInfo
                        ("Timeline generated successfully and saved to: "
                         ++ output args)])%list
                     (log_files args) events
                     (Some (mkCsv (output args) (negb (no_header args))
                                  (sort0 events))))
        | Some why =>
            Returned
              (mkRun (logs ++ [LogError
                        ("Error writing to CSV file: " ++ why)])%list
                     (log_files args) events None)
        end
    end.
Proof.
  intros Hfiles Hprio. cbv zeta. unfold main.
  rewrite find_all_false
    by (intros q Hq; now rewrite (Hfiles q Hq)).
  destruct (priority_name_getitem _ Hprio) as [n ->].
  fold (chosen_formats args). rewrite process_all_flat_map.
  reflexivity.
Qed.

End MoreRuns.




